(** * Timestamps.py: quarter-day Unix timestamps

    A shallow embedding of [generate_gmt_timestamps] and of the module-level
    driver of [Timestamps.py], together with the part of Python's [datetime]
    module the function calls (date validation, proleptic Gregorian ordinals,
    subtraction from the epoch, [timestamp()]), followed by the properties
    stated about them. *)

From Stdlib Require Import ZArith List String Ascii Bool Lia Sorted.
From Stdlib Require Import DecimalString.
Import ListNotations.
Open Scope Z_scope.

(** ** Exceptions and the error monad *)

(** The exceptions the modelled code can raise, each with the message that
    CPython's [datetime] gives it. *)
Inductive py_exn : Type :=
| ValueError (msg : string)
| OverflowError (msg : string)
| TypeError (msg : string).

(** A Python computation either raises or returns. *)
Definition result (A : Type) : Type := (py_exn + A)%type.

Definition ret {A : Type} (a : A) : result A := inr a.
Definition raise {A : Type} (e : py_exn) : result A := inl e.

Definition bind {A B : Type} (c : result A) (k : A -> result B) : result B :=
  match c with
  | inl e => inl e
  | inr a => k a
  end.

Notation "x <- c ;; k" := (bind c (fun x => k))
  (at level 61, c at next level, right associativity).

(** A [for x in xs: body] loop over an accumulator that the body updates;
    an exception raised by the body leaves the loop. *)
Fixpoint for_each {A S : Type} (xs : list A) (body : A -> S -> result S)
  (s : S) : result S :=
  match xs with
  | [] => ret s
  | x :: rest => s' <- body x s ;; for_each rest body s'
  end.

(** [range(a, b)] with the default step 1. *)
Definition py_range (a b : Z) : list Z :=
  map (fun i => a + Z.of_nat i) (seq 0 (Z.to_nat (b - a))).

(** [str(n)] for an [int]; also how the format [%i] prints a C [int]. *)
Definition py_str_int (n : Z) : string :=
  NilEmpty.string_of_int (Z.to_int n).

(** ** The [datetime] module *)

Module PyDatetime.

(** The ranges of a C [int] and of a C [long]. *)
Definition INT_MIN : Z := -2147483648.
Definition INT_MAX : Z := 2147483647.
Definition LONG_MIN : Z := -9223372036854775808.
Definition LONG_MAX : Z := 9223372036854775807.

(** An [int] argument parsed with the format unit [i]: the value is read as
    a C [long] (64 bits wide here, as on Linux) and must then fit a C
    [int]. *)
Definition as_c_int (v : Z) : result Z :=
  if (v <? LONG_MIN) || (LONG_MAX <? v) then
    raise (OverflowError "Python int too large to convert to C long")
  else if INT_MAX <? v then
    raise (OverflowError "signed integer is greater than maximum")
  else if v <? INT_MIN then
    raise (OverflowError "signed integer is less than minimum")
  else ret v.

Definition MINYEAR : Z := 1.
Definition MAXYEAR : Z := 9999.

(** [_DAYS_IN_MONTH], index 0 is the [-1] placeholder. *)
Definition _DAYS_IN_MONTH : list Z :=
  [-1; 31; 28; 31; 30; 31; 30; 31; 31; 30; 31; 30; 31].

(** [_DAYS_BEFORE_MONTH] is built at import time by a loop over
    [_DAYS_IN_MONTH[1:]] that appends the running total [dbm]. *)
Definition _DAYS_BEFORE_MONTH : list Z := Eval cbv in
  fst (fold_left (fun '(acc, dbm) dim => (acc ++ [dbm], dbm + dim))
         (tl _DAYS_IN_MONTH) ([-1], 0)).

(** List indexing at an index already known to be in range. *)
Definition index (l : list Z) (i : Z) : Z := nth (Z.to_nat i) l 0.

Definition _is_leap (year : Z) : bool :=
  (year mod 4 =? 0) && (negb (year mod 100 =? 0) || (year mod 400 =? 0)).

Definition _days_before_year (year : Z) : Z :=
  let y := year - 1 in
  y * 365 + y / 4 - y / 100 + y / 400.

Definition _days_in_month (year month : Z) : Z :=
  if (month =? 2) && _is_leap year then 29 else index _DAYS_IN_MONTH month.

Definition _days_before_month (year month : Z) : Z :=
  index _DAYS_BEFORE_MONTH month
  + (if (2 <? month) && _is_leap year then 1 else 0).

Definition _ymd2ord (year month day : Z) : Z :=
  _days_before_year year + _days_before_month year month + day.

Definition _DI400Y : Z := Eval cbv in _days_before_year 401.
Definition _DI100Y : Z := Eval cbv in _days_before_year 101.
Definition _DI4Y : Z := Eval cbv in _days_before_year 5.

Definition _MAXORDINAL : Z := Eval cbv in _ymd2ord 9999 12 31.

(** [_ord2ymd], the inverse of [_ymd2ord]: ordinal to (year, month, day). *)
Definition _ord2ymd (n0 : Z) : Z * Z * Z :=
  let n := n0 - 1 in
  let n400 := n / _DI400Y in
  let n := n mod _DI400Y in
  let year := n400 * 400 + 1 in
  let n100 := n / _DI100Y in
  let n := n mod _DI100Y in
  let n4 := n / _DI4Y in
  let n := n mod _DI4Y in
  let n1 := n / 365 in
  let n := n mod 365 in
  let year := year + (n100 * 100 + n4 * 4 + n1) in
  if (n1 =? 4) || (n100 =? 4) then (year - 1, 12, 31)
  else
    let leapyear := (n1 =? 3) && (negb (n4 =? 24) || (n100 =? 3)) in
    let month := Z.shiftr (n + 50) 5 in
    let preceding :=
      index _DAYS_BEFORE_MONTH month
      + (if (2 <? month) && leapyear then 1 else 0) in
    if n <? preceding then
      let month := month - 1 in
      let preceding :=
        preceding - (index _DAYS_IN_MONTH month
                     + (if (month =? 2) && leapyear then 1 else 0)) in
      (year, month, n - preceding + 1)
    else (year, month, n - preceding + 1).

Definition _check_date_fields (year month day : Z) : result (Z * Z * Z) :=
  if negb ((MINYEAR <=? year) && (year <=? MAXYEAR)) then
    raise (ValueError ("year " ++ py_str_int year ++ " is out of range"))
  else if negb ((1 <=? month) && (month <=? 12)) then
    raise (ValueError "month must be in 1..12")
  else
    let dim := _days_in_month year month in
    if negb ((1 <=? day) && (day <=? dim)) then
      raise (ValueError "day is out of range for month")
    else ret (year, month, day).

Definition _check_time_fields (hour minute second microsecond : Z)
  : result (Z * Z * Z * Z) :=
  if negb ((0 <=? hour) && (hour <=? 23)) then
    raise (ValueError "hour must be in 0..23")
  else if negb ((0 <=? minute) && (minute <=? 59)) then
    raise (ValueError "minute must be in 0..59")
  else if negb ((0 <=? second) && (second <=? 59)) then
    raise (ValueError "second must be in 0..59")
  else if negb ((0 <=? microsecond) && (microsecond <=? 999999)) then
    raise (ValueError "microsecond must be in 0..999999")
  else ret (hour, minute, second, microsecond).

(** A [timedelta], held as its total number of microseconds
    ([(days * 86400 + seconds) * 10**6 + microseconds]). *)
Record timedelta : Type := mk_timedelta { total_microseconds : Z }.

Definition timedelta_of (days seconds microseconds : Z) : timedelta :=
  mk_timedelta ((days * 86400 + seconds) * 1000000 + microseconds).

Definition timedelta_add (a b : timedelta) : timedelta :=
  mk_timedelta (total_microseconds a + total_microseconds b).

Definition timedelta_sub (a b : timedelta) : timedelta :=
  mk_timedelta (total_microseconds a - total_microseconds b).

(** A fixed-offset [timezone]. *)
Record timezone : Type := mk_timezone { utcoffset : timedelta }.

Definition timezone_utc : timezone := mk_timezone (timedelta_of 0 0 0).

Record datetime : Type := mk_datetime {
  year : Z;
  month : Z;
  day : Z;
  hour : Z;
  minute : Z;
  second : Z;
  microsecond : Z;
  tzinfo : option timezone
}.

(** The constructor [datetime(year, month, day, hour, minute, second,
    microsecond, tzinfo)]: the integer arguments are parsed as C [int]s, in
    order, before the fields are checked. *)
Definition datetime_new (y m d hh mm ss us : Z) (tz : option timezone)
  : result datetime :=
  y <- as_c_int y ;;
  m <- as_c_int m ;;
  d <- as_c_int d ;;
  hh <- as_c_int hh ;;
  mm <- as_c_int mm ;;
  ss <- as_c_int ss ;;
  us <- as_c_int us ;;
  ymd <- _check_date_fields y m d ;;
  hmsu <- _check_time_fields hh mm ss us ;;
  let '(y, m, d) := ymd in
  let '(hh, mm, ss, us) := hmsu in
  ret (mk_datetime y m d hh mm ss us tz).

Definition toordinal (dt : datetime) : Z :=
  _ymd2ord (year dt) (month dt) (day dt).

(** [_EPOCH = datetime(1970, 1, 1, tzinfo=timezone.utc)]. *)
Definition _EPOCH : datetime :=
  mk_datetime 1970 1 1 0 0 0 0 (Some timezone_utc).

(** [datetime.__sub__] on two datetimes: both naive, or both aware. *)
Definition datetime_sub (a b : datetime) : result timedelta :=
  let days1 := toordinal a in
  let days2 := toordinal b in
  let secs1 := second a + minute a * 60 + hour a * 3600 in
  let secs2 := second b + minute b * 60 + hour b * 3600 in
  let base :=
    timedelta_of (days1 - days2) (secs1 - secs2)
      (microsecond a - microsecond b) in
  match tzinfo a, tzinfo b with
  | None, None => ret base
  | Some za, Some zb =>
      ret (timedelta_sub (timedelta_add base (utcoffset zb)) (utcoffset za))
  | _, _ =>
      raise (TypeError "can't subtract offset-naive and offset-aware datetimes")
  end.

(** What the interpreter's host contributes to [timestamp()]: the local
    time zone rules, used by [_mktime] to turn the wall-clock seconds of a
    naive datetime into seconds since the epoch. *)
Record Host : Type := mk_host { local_mktime : Z -> Z }.

(** A Python [float] holding a number of seconds, modelled by the exact
    count of microseconds it stands for.  The values [timestamp()] yields
    below are whole seconds of magnitude under [2^53], which binary64
    represents exactly (see [timestamp_fits_binary64]). *)
Record py_float_seconds : Type := mk_seconds { as_microseconds : Z }.

Definition total_seconds (td : timedelta) : py_float_seconds :=
  mk_seconds (total_microseconds td).

(** [datetime.timestamp()]. *)
Definition timestamp (h : Host) (dt : datetime) : result py_float_seconds :=
  match tzinfo dt with
  | None =>
      let naive_epoch := mk_datetime 1970 1 1 0 0 0 0 None in
      delta <- datetime_sub dt naive_epoch ;;
      let wall := total_microseconds delta / 1000000 in
      ret (mk_seconds (local_mktime h wall * 1000000 + microsecond dt))
  | Some _ =>
      delta <- datetime_sub dt _EPOCH ;;
      ret (total_seconds delta)
  end.

(** [int(x)] on a float: truncation toward zero. *)
Definition py_int (x : py_float_seconds) : Z :=
  Z.quot (as_microseconds x) 1000000.

(** [_EPOCH + timedelta(seconds=t)], read back as
    (year, month, day, hour, minute, second): the UTC calendar date and time
    of a Unix timestamp.  [datetime.__add__] raises [OverflowError] when the
    day falls outside [1 .. _MAXORDINAL]. *)
Definition utc_of_timestamp (t : Z) : result (Z * Z * Z * Z * Z * Z) :=
  let days := toordinal _EPOCH + t / 86400 in
  let secs := t mod 86400 in
  let hh := secs / 3600 in
  let rem := secs mod 3600 in
  let mm := rem / 60 in
  let ss := rem mod 60 in
  if (0 <? days) && (days <=? _MAXORDINAL) then
    let '(y, m, d) := _ord2ymd days in
    ret (y, m, d, hh, mm, ss)
  else raise (OverflowError "date value out of range").

End PyDatetime.

(** ** Timestamps.py *)

Import PyDatetime.

Definition target_dates : list (Z * Z) :=
  [(3, 25); (6, 24); (9, 29); (12, 25)].

Definition default_start_year : Z := 2024.
Definition default_end_year : Z := 2044.

Definition generate_gmt_timestamps (h : Host) (start_year end_year : Z)
  : result (list Z) :=
  let timestamps : list Z := [] in
  initial_date <-
    datetime_new start_year 12 25 0 0 0 0 (Some timezone_utc) ;;
  seconds <- timestamp h initial_date ;;
  let timestamps := timestamps ++ [py_int seconds] in
  for_each (py_range (start_year + 1) (end_year + 1))
    (fun year timestamps =>
       for_each target_dates
         (fun '(month, day) timestamps =>
            dt <- datetime_new year month day 0 0 0 0 (Some timezone_utc) ;;
            seconds <- timestamp h dt ;;
            ret (timestamps ++ [py_int seconds]))
         timestamps)
    timestamps.

(** *** The module-level driver *)

Definition newline : string := String (ascii_of_nat 10) EmptyString.

(** [str(l)] for a list of [int]: the items' [repr] joined by a comma and a
    space, in square brackets. *)
Definition py_str_list (l : list Z) : string :=
  ("[" ++ String.concat ", " (map py_str_int l) ++ "]")%string.

(** [print(s)] appends [s] and a newline to standard output. *)
Definition print (s : string) (out : string) : string :=
  (out ++ s ++ newline)%string.

(** What a run of the script leaves behind: the text on standard output and
    the exception that ended it, if any. *)
Record process : Type := mk_process {
  stdout : string;
  uncaught : option py_exn
}.

(** The three statements at the end of the file. *)
Definition main (h : Host) : process :=
  match generate_gmt_timestamps h default_start_year default_end_year with
  | inl e => mk_process EmptyString (Some e)
  | inr timestamps =>
      let out := print (py_str_list timestamps) EmptyString in
      let out :=
        print ("Total timestamps generated: "
               ++ py_str_int (Z.of_nat (List.length timestamps)))%string out in
      mk_process out None
  end.

(** ** Vocabulary of the properties *)

(** Seconds from the epoch to 00:00:00 UTC of a calendar day. *)
Definition midnight_utc (y m d : Z) : Z :=
  86400 * (_ymd2ord y m d - toordinal _EPOCH).

(** The four timestamps of one year, in the order of [target_dates]. *)
Definition year_block (y : Z) : list Z :=
  map (fun '(m, d) => midnight_utc y m d) target_dates.

(** The years the date constructor accepts. *)
Definition supported_year (y : Z) : Prop := MINYEAR <= y <= MAXYEAR.

(** What the constructor raises for a year it does not accept: the
    argument parser's [OverflowError] when the year does not fit a C [int],
    the field check's [ValueError] otherwise. *)
Definition year_failure (y : Z) : py_exn :=
  match as_c_int y with
  | inl e => e
  | inr _ => ValueError ("year " ++ py_str_int y ++ " is out of range")
  end.

(** What [generate_gmt_timestamps] raises when it does not return: the
    failure of the seed date, or else that of the first year past
    [MAXYEAR] that the loop reaches. *)
Definition raised_for (start_year : Z) : py_exn :=
  if (MINYEAR <=? start_year) && (start_year <=? MAXYEAR)
  then year_failure (MAXYEAR + 1)
  else year_failure start_year.

(** Each element is strictly greater than the one before it. *)
Definition strictly_increasing (l : list Z) : Prop :=
  forall i : nat, (S i < List.length l)%nat -> nth i l 0 < nth (S i) l 0.

(** The text of standard output cut at newlines; each printed line ends
    with one, so the text after the last newline is not a line. *)
Fixpoint lines_from (cur : string) (s : string) : list string :=
  match s with
  | EmptyString => []
  | String c rest =>
      if Ascii.eqb c (ascii_of_nat 10) then cur :: lines_from EmptyString rest
      else lines_from (cur ++ String c EmptyString)%string rest
  end.

Definition lines (s : string) : list string := lines_from EmptyString s.

(** The bodies of the inner and of the outer loop of
    [generate_gmt_timestamps], as they stand in its definition. *)
Definition inner_body (h : Host) (year : Z)
  : Z * Z -> list Z -> result (list Z) :=
  fun '(month, day) timestamps =>
    dt <- datetime_new year month day 0 0 0 0 (Some timezone_utc) ;;
    seconds <- timestamp h dt ;;
    ret (timestamps ++ [py_int seconds]).

Definition outer_body (h : Host) : Z -> list Z -> result (list Z) :=
  fun year timestamps => for_each target_dates (inner_body h year) timestamps.

(** The list the function builds on the years it accepts. *)
Definition expected_sequence (start_year end_year : Z) : list Z :=
  midnight_utc start_year 12 25
  :: flat_map year_block (py_range (start_year + 1) (end_year + 1)).

(** The check behind [ord2ymd_ymd2ord_target]: in year [y], the ordinal of
    each target date reads back as that date. *)
Definition ordinal_reads_back (y : Z) : bool :=
  forallb
    (fun '(m, d) =>
       let '(y', m', d') := _ord2ymd (_ymd2ord y m d) in
       (y' =? y) && (m' =? m) && (d' =? d))
    target_dates.

(** A host whose local time is UTC, and one nine hours ahead of it. *)
Definition utc_host : Host := mk_host (fun wall => wall).
Definition tokyo_host : Host := mk_host (fun wall => wall - 32400).

(** * Properties *)

(** ** The calendar *)

Lemma days_before_year_succ (y : Z) :
  _days_before_year (y + 1)
  = _days_before_year y + (if _is_leap y then 366 else 365).
Proof.
  unfold _days_before_year, _is_leap; cbv zeta.
  replace (y + 1 - 1) with y by lia.
  destruct (Z.eqb_spec (y mod 4) 0), (Z.eqb_spec (y mod 100) 0),
    (Z.eqb_spec (y mod 400) 0); cbn [andb orb negb];
    Z.div_mod_to_equations; lia.
Qed.

Lemma days_before_year_first : _days_before_year MINYEAR = 0.
Proof. reflexivity. Qed.

Lemma epoch_ordinal : toordinal _EPOCH = 719163.
Proof. reflexivity. Qed.

(** Ordinals of the four target dates: the table entry, the leap day and the
    day of the month. *)
Lemma ymd2ord_target (y m d : Z) :
  In (m, d) target_dates ->
  _ymd2ord y m d
  = _days_before_year y + index _DAYS_BEFORE_MONTH m
    + (if _is_leap y then 1 else 0) + d.
Proof.
  unfold target_dates, _ymd2ord, _days_before_month.
  intros [E | [E | [E | [E | []]]]]; inversion E; subst; cbn [Z.ltb Z.compare andb Pos.compare Pos.compare_cont]; lia.
Qed.

Lemma target_day_valid (y m d : Z) :
  In (m, d) target_dates ->
  (1 <=? m) && (m <=? 12) = true
  /\ (1 <=? d) && (d <=? _days_in_month y m) = true.
Proof.
  unfold target_dates, _days_in_month.
  intros [E | [E | [E | [E | []]]]]; inversion E; subst; split; reflexivity.
Qed.

(** ** The constructor and [timestamp()] *)

Lemma supported_year_dec (y : Z) :
  {supported_year y} + {~ supported_year y}.
Proof.
  unfold supported_year.
  destruct (Z_le_dec MINYEAR y); [destruct (Z_le_dec y MAXYEAR) |];
    (left; lia) || (right; lia).
Defined.

Lemma supported_year_check (y : Z) :
  supported_year y -> (MINYEAR <=? y) && (y <=? MAXYEAR) = true.
Proof.
  unfold supported_year; intros [L U].
  apply andb_true_intro; split; apply Z.leb_le; assumption.
Qed.

Lemma unsupported_year_check (y : Z) :
  ~ supported_year y -> (MINYEAR <=? y) && (y <=? MAXYEAR) = false.
Proof.
  unfold supported_year; intros N.
  apply andb_false_iff.
  destruct (Z.leb_spec MINYEAR y); [right | left; reflexivity].
  apply Z.leb_gt; lia.
Qed.

Lemma as_c_int_fits (v : Z) :
  INT_MIN <= v <= INT_MAX -> as_c_int v = inr v.
Proof.
  unfold as_c_int, INT_MIN, INT_MAX, LONG_MIN, LONG_MAX. intros Hv.
  destruct (Z.ltb_spec v (-9223372036854775808)); [lia |].
  destruct (Z.ltb_spec 9223372036854775807 v); [lia |].
  destruct (Z.ltb_spec 2147483647 v); [lia |].
  destruct (Z.ltb_spec v (-2147483648)); [lia |].
  reflexivity.
Qed.

Lemma as_c_int_overflows (v : Z) :
  ~ INT_MIN <= v <= INT_MAX ->
  exists msg : string, as_c_int v = inl (OverflowError msg).
Proof.
  unfold as_c_int, INT_MIN, INT_MAX, LONG_MIN, LONG_MAX. intros Hv.
  destruct (Z.ltb_spec v (-9223372036854775808)); [eexists; reflexivity |].
  destruct (Z.ltb_spec 9223372036854775807 v); [eexists; reflexivity |].
  destruct (Z.ltb_spec 2147483647 v); [eexists; reflexivity |].
  destruct (Z.ltb_spec v (-2147483648)); [eexists; reflexivity |].
  lia.
Qed.

Lemma target_fits_c_int (m d : Z) :
  In (m, d) target_dates ->
  INT_MIN <= m <= INT_MAX /\ INT_MIN <= d <= INT_MAX.
Proof.
  unfold target_dates, INT_MIN, INT_MAX.
  intros [E | [E | [E | [E | []]]]]; inversion E; subst; lia.
Qed.

(** Parses the seven integer arguments of a target date at midnight, given
    that the year fits a C [int]. *)
Ltac parse_arguments Hy Hm Hd :=
  rewrite (as_c_int_fits _ Hy); cbn [bind];
  rewrite (as_c_int_fits _ Hm); cbn [bind];
  rewrite (as_c_int_fits _ Hd); cbn [bind];
  rewrite (as_c_int_fits 0) by (unfold INT_MIN, INT_MAX; lia); cbn [bind].

Lemma datetime_new_target (y m d : Z) (tz : option timezone) :
  supported_year y -> In (m, d) target_dates ->
  datetime_new y m d 0 0 0 0 tz = inr (mk_datetime y m d 0 0 0 0 tz).
Proof.
  intros Hy Hmd.
  destruct (target_day_valid y m d Hmd) as [Hm Hd].
  destruct (target_fits_c_int m d Hmd) as [Hmi Hdi].
  assert (Hyi : INT_MIN <= y <= INT_MAX)
    by (unfold supported_year, MINYEAR, MAXYEAR, INT_MIN, INT_MAX in *; lia).
  unfold datetime_new. parse_arguments Hyi Hmi Hdi.
  unfold _check_date_fields.
  rewrite (supported_year_check y Hy), Hm, Hd.
  reflexivity.
Qed.

Lemma datetime_new_unsupported (y m d : Z) (tz : option timezone) :
  ~ supported_year y -> In (m, d) target_dates ->
  datetime_new y m d 0 0 0 0 tz = inl (year_failure y).
Proof.
  intros Hy Hmd.
  destruct (target_fits_c_int m d Hmd) as [Hmi Hdi].
  unfold year_failure.
  destruct (Z_le_dec INT_MIN y) as [Hlo | Hlo];
    [destruct (Z_le_dec y INT_MAX) as [Hhi | Hhi] |].
  - assert (Hyi : INT_MIN <= y <= INT_MAX) by lia.
    unfold datetime_new. parse_arguments Hyi Hmi Hdi.
    unfold _check_date_fields.
    rewrite (unsupported_year_check y Hy). reflexivity.
  - destruct (as_c_int_overflows y ltac:(lia)) as [msg E].
    unfold datetime_new. rewrite E. reflexivity.
  - destruct (as_c_int_overflows y ltac:(lia)) as [msg E].
    unfold datetime_new. rewrite E. reflexivity.
Qed.

(** The kind of exception an unaccepted year gives. *)
Lemma year_failure_kind (y : Z) :
  (INT_MIN <= y <= INT_MAX ->
   year_failure y
   = ValueError ("year " ++ py_str_int y ++ " is out of range"))
  /\ (~ INT_MIN <= y <= INT_MAX ->
      exists msg : string, year_failure y = OverflowError msg).
Proof.
  unfold year_failure. split; intros Hy.
  - rewrite (as_c_int_fits y Hy). reflexivity.
  - destruct (as_c_int_overflows y Hy) as [msg E]. rewrite E.
    exists msg. reflexivity.
Qed.

(** [int()] of a float that holds a whole number of seconds. *)
Lemma py_int_whole (x : Z) : py_int (mk_seconds (x * 1000000)) = x.
Proof. unfold py_int; cbn [as_microseconds]. apply Z.quot_mul. lia. Qed.

(** The timestamp of an aware UTC midnight does not consult the host. *)
Lemma timestamp_midnight (h : Host) (y m d : Z) :
  timestamp h (mk_datetime y m d 0 0 0 0 (Some timezone_utc))
  = inr (mk_seconds (midnight_utc y m d * 1000000)).
Proof.
  unfold timestamp, datetime_sub, toordinal.
  cbn [tzinfo year month day hour minute second microsecond _EPOCH
       timezone_utc utcoffset bind ret].
  unfold total_seconds, timedelta_sub, timedelta_add, timedelta_of,
    midnight_utc, toordinal.
  cbn [total_microseconds year month day _EPOCH].
  unfold ret. do 2 f_equal. lia.
Qed.

(** ** The two loops *)

Section Loops.

Variable h : Host.

Lemma inner_loop_returns (y : Z) (dates : list (Z * Z)) (acc : list Z) :
  supported_year y -> incl dates target_dates ->
  for_each dates (inner_body h y) acc
  = inr (acc ++ map (fun '(m, d) => midnight_utc y m d) dates).
Proof.
  intros Hy. revert acc.
  induction dates as [| [m d] rest IH]; intros acc Hin; cbn [for_each map].
  - rewrite app_nil_r; reflexivity.
  - unfold inner_body at 1.
    rewrite datetime_new_target by (auto using in_eq).
    cbn [bind ret]. rewrite timestamp_midnight.
    cbn [bind ret]. rewrite py_int_whole.
    rewrite IH by (intros x Hx; apply Hin; right; exact Hx).
    rewrite <- app_assoc; reflexivity.
Qed.

Lemma outer_body_returns (y : Z) (acc : list Z) :
  supported_year y -> outer_body h y acc = inr (acc ++ year_block y).
Proof.
  intros Hy. unfold outer_body, year_block.
  apply inner_loop_returns; [exact Hy | apply incl_refl].
Qed.

Lemma outer_body_raises (y : Z) (acc : list Z) :
  ~ supported_year y ->
  outer_body h y acc = inl (year_failure y).
Proof.
  intros Hy. unfold outer_body.
  change target_dates with ((3, 25) :: tl target_dates).
  cbn [for_each]; unfold inner_body at 1.
  rewrite datetime_new_unsupported by (exact Hy || (cbn; tauto)).
  reflexivity.
Qed.

Lemma outer_loop_returns (years : list Z) (acc : list Z) :
  Forall supported_year years ->
  for_each years (outer_body h) acc = inr (acc ++ flat_map year_block years).
Proof.
  intros Hall. revert acc.
  induction Hall as [| y rest Hy _ IH]; intros acc; cbn [for_each flat_map].
  - rewrite app_nil_r; reflexivity.
  - rewrite outer_body_returns by exact Hy.
    cbn [bind]. rewrite IH, app_assoc; reflexivity.
Qed.

Lemma outer_loop_raises (good : list Z) (bad : Z) (rest acc : list Z) :
  Forall supported_year good -> ~ supported_year bad ->
  for_each (good ++ bad :: rest) (outer_body h) acc
  = inl (year_failure bad).
Proof.
  intros Hgood Hbad. revert acc.
  induction Hgood as [| y good Hy _ IH]; intros acc; cbn [app for_each].
  - rewrite outer_body_raises by exact Hbad. reflexivity.
  - rewrite outer_body_returns by exact Hy. cbn [bind]. apply IH.
Qed.

End Loops.

(** ** [range] *)

Lemma py_range_In (a b y : Z) : In y (py_range a b) <-> a <= y < b.
Proof.
  unfold py_range. rewrite in_map_iff. split.
  - intros [i [E Hi]]. apply in_seq in Hi. lia.
  - intros Hy. exists (Z.to_nat (y - a)). split; [lia |].
    apply in_seq. lia.
Qed.

Lemma py_range_length (a b : Z) :
  List.length (py_range a b) = Z.to_nat (b - a).
Proof. unfold py_range. rewrite length_map, length_seq. reflexivity. Qed.

Lemma py_range_empty (a b : Z) : b <= a -> py_range a b = [].
Proof.
  intros Hle. unfold py_range.
  replace (Z.to_nat (b - a)) with 0%nat by lia. reflexivity.
Qed.

Lemma py_range_cons (a b : Z) :
  a < b -> py_range a b = a :: py_range (a + 1) b.
Proof.
  intros Hlt. unfold py_range.
  replace (Z.to_nat (b - a)) with (S (Z.to_nat (b - (a + 1)))) by lia.
  cbn [seq map]. f_equal; [lia |].
  rewrite <- seq_shift, map_map.
  apply map_ext. intros i. lia.
Qed.

Lemma py_range_app (a b c : Z) :
  a <= b <= c -> py_range a c = py_range a b ++ py_range b c.
Proof.
  intros Habc.
  remember (Z.to_nat (b - a)) as n eqn:En.
  revert a Habc En.
  induction n as [| n IH]; intros a Habc En.
  - replace b with a by lia.
    rewrite (py_range_empty a a) by lia. reflexivity.
  - rewrite (py_range_cons a c), (py_range_cons a b) by lia.
    cbn [app]. f_equal. apply IH; lia.
Qed.

Lemma py_range_last (a b : Z) :
  a <= b -> py_range a (b + 1) = py_range a b ++ [b].
Proof.
  intros Hab. rewrite (py_range_app a b (b + 1)) by lia.
  rewrite (py_range_cons b (b + 1)), (py_range_empty (b + 1)) by lia.
  reflexivity.
Qed.

(** ** What [generate_gmt_timestamps] returns and when it raises *)

Lemma generate_returns (h : Host) (start_year end_year : Z) :
  supported_year start_year -> end_year <= MAXYEAR ->
  generate_gmt_timestamps h start_year end_year
  = inr (expected_sequence start_year end_year).
Proof.
  intros Hs He. unfold generate_gmt_timestamps, expected_sequence.
  rewrite datetime_new_target by (exact Hs || (cbn; tauto)).
  cbn [bind app]. rewrite timestamp_midnight.
  cbn [bind]. rewrite py_int_whole.
  apply (outer_loop_returns h).
  apply Forall_forall. intros y Hy. apply py_range_In in Hy.
  unfold supported_year in *. lia.
Qed.

Lemma generate_raises (h : Host) (start_year end_year : Z) :
  ~ (supported_year start_year /\ end_year <= MAXYEAR) ->
  generate_gmt_timestamps h start_year end_year
  = inl (raised_for start_year).
Proof.
  intros Hbad. unfold generate_gmt_timestamps, raised_for.
  destruct (supported_year_dec start_year) as [Hs | Hs].
  - rewrite (supported_year_check start_year Hs).
    rewrite datetime_new_target by (exact Hs || (cbn; tauto)).
    cbn [bind app]. rewrite timestamp_midnight. cbn [bind].
    assert (Hend : MAXYEAR < end_year)
      by (destruct (Z_le_gt_dec end_year MAXYEAR); [tauto | lia]).
    unfold supported_year in Hs.
    rewrite (py_range_app (start_year + 1) (MAXYEAR + 1) (end_year + 1))
      by lia.
    rewrite (py_range_cons (MAXYEAR + 1) (end_year + 1)) by lia.
    apply (outer_loop_raises h).
    + apply Forall_forall. intros y Hy. apply py_range_In in Hy.
      unfold supported_year. lia.
    + unfold supported_year, MINYEAR, MAXYEAR. lia.
  - rewrite (unsupported_year_check start_year Hs).
    rewrite datetime_new_unsupported by (exact Hs || (cbn; tauto)).
    reflexivity.
Qed.

Lemma generate_inversion (h : Host) (start_year end_year : Z) (l : list Z) :
  generate_gmt_timestamps h start_year end_year = inr l ->
  supported_year start_year /\ end_year <= MAXYEAR
  /\ l = expected_sequence start_year end_year.
Proof.
  intros Hl.
  destruct (supported_year_dec start_year) as [Hs | Hs].
  - destruct (Z_le_dec end_year MAXYEAR) as [He | He].
    + rewrite generate_returns in Hl by assumption.
      inversion Hl. auto.
    + rewrite generate_raises in Hl by tauto. discriminate.
  - rewrite generate_raises in Hl by tauto. discriminate.
Qed.

(** Where each element comes from. *)
Lemma expected_sequence_In (start_year end_year t : Z) :
  In t (expected_sequence start_year end_year) <->
  t = midnight_utc start_year 12 25
  \/ exists y m d, start_year < y <= end_year /\ In (m, d) target_dates
                   /\ t = midnight_utc y m d.
Proof.
  unfold expected_sequence. cbn [In]. rewrite in_flat_map. split.
  - intros [E | [y [Hy Ht]]]; [left; auto |].
    right. apply py_range_In in Hy.
    unfold year_block in Ht. apply in_map_iff in Ht.
    destruct Ht as [[m d] [E Hmd]].
    exists y, m, d. repeat split; auto; lia.
  - intros [E | [y [m [d [Hy [Hmd E]]]]]]; [left; auto |].
    right. exists y. split; [apply py_range_In; lia |].
    unfold year_block. apply in_map_iff. exists (m, d). auto.
Qed.

(** ** Chronological order *)

(** Reads the four entries of [_DAYS_BEFORE_MONTH] the target dates use. *)
Ltac table_lookup :=
  change (index _DAYS_BEFORE_MONTH 3) with 59;
  change (index _DAYS_BEFORE_MONTH 6) with 151;
  change (index _DAYS_BEFORE_MONTH 9) with 243;
  change (index _DAYS_BEFORE_MONTH 12) with 334.

Lemma midnight_within_year (y : Z) :
  midnight_utc y 3 25 < midnight_utc y 6 24
  /\ midnight_utc y 6 24 < midnight_utc y 9 29
  /\ midnight_utc y 9 29 < midnight_utc y 12 25.
Proof.
  unfold midnight_utc.
  rewrite !ymd2ord_target by (cbn; tauto).
  table_lookup. destruct (_is_leap y); lia.
Qed.

Lemma midnight_across_years (y : Z) :
  midnight_utc y 12 25 < midnight_utc (y + 1) 3 25.
Proof.
  unfold midnight_utc.
  rewrite !ymd2ord_target by (cbn; tauto).
  rewrite days_before_year_succ.
  table_lookup. destruct (_is_leap y), (_is_leap (y + 1)); lia.
Qed.

Lemma year_block_unfold (y : Z) :
  year_block y
  = [midnight_utc y 3 25; midnight_utc y 6 24;
     midnight_utc y 9 29; midnight_utc y 12 25].
Proof. reflexivity. Qed.

Lemma blocks_sorted (n : nat) :
  forall a b : Z, Z.to_nat (b - a) = n ->
  Sorted Z.lt (flat_map year_block (py_range a b))
  /\ forall x, x < midnight_utc a 3 25 ->
               HdRel Z.lt x (flat_map year_block (py_range a b)).
Proof.
  induction n as [| n IH]; intros a b Hn.
  - rewrite py_range_empty by lia. cbn. split; constructor.
  - rewrite py_range_cons by lia. cbn [flat_map].
    rewrite year_block_unfold.
    destruct (IH (a + 1) b ltac:(lia)) as [Hsorted Hhead].
    destruct (midnight_within_year a) as [H1 [H2 H3]].
    pose proof (midnight_across_years a) as H4.
    split.
    + cbn [app].
      constructor; [| constructor; exact H1].
      constructor; [| constructor; exact H2].
      constructor; [| constructor; exact H3].
      constructor; [exact Hsorted | apply Hhead; exact H4].
    + intros x Hx. cbn [app]. constructor. exact Hx.
Qed.

Lemma expected_sequence_sorted (start_year end_year : Z) :
  Sorted Z.lt (expected_sequence start_year end_year).
Proof.
  unfold expected_sequence.
  destruct (blocks_sorted _ (start_year + 1) (end_year + 1) eq_refl)
    as [Hsorted Hhead].
  constructor; [exact Hsorted |].
  apply Hhead, midnight_across_years.
Qed.

Lemma Sorted_adjacent (l : list Z) :
  Sorted Z.lt l -> strictly_increasing l.
Proof.
  unfold strictly_increasing.
  induction 1 as [| a l Hs IH Hhd]; intros i Hi; cbn in Hi; [lia |].
  destruct i as [| i].
  - destruct Hhd as [| b l' Hab]; cbn in Hi |- *; [lia | exact Hab].
  - cbn [nth]. apply IH. cbn [List.length] in Hi. lia.
Qed.

Lemma Sorted_NoDup (l : list Z) : Sorted Z.lt l -> NoDup l.
Proof.
  intros Hs. apply Sorted_StronglySorted in Hs; [| exact Z.lt_trans].
  induction Hs as [| a l _ IH Hall]; constructor; [| exact IH].
  intros Hin. rewrite Forall_forall in Hall.
  specialize (Hall a Hin). lia.
Qed.

(** Every element is at or after the first one. *)
Lemma expected_sequence_lower (start_year end_year t : Z) :
  In t (expected_sequence start_year end_year) ->
  midnight_utc start_year 12 25 <= t.
Proof.
  intros Hin.
  pose proof (expected_sequence_sorted start_year end_year) as Hs.
  apply Sorted_StronglySorted in Hs; [| exact Z.lt_trans].
  unfold expected_sequence in *.
  inversion Hs as [| a l _ Hall]; subst.
  destruct Hin as [E | Hin]; [lia |].
  rewrite Forall_forall in Hall. specialize (Hall t Hin). lia.
Qed.

(** ** Back from timestamps to calendar dates *)

(** The Gregorian calendar repeats every 400 years, that is every
    [_DI400Y] days; both conversions follow the cycle. *)
Lemma is_leap_period (y : Z) : _is_leap (y + 400) = _is_leap y.
Proof.
  unfold _is_leap.
  replace ((y + 400) mod 4) with (y mod 4)
    by (Z.div_mod_to_equations; lia).
  replace ((y + 400) mod 100) with (y mod 100)
    by (Z.div_mod_to_equations; lia).
  replace ((y + 400) mod 400) with (y mod 400)
    by (Z.div_mod_to_equations; lia).
  reflexivity.
Qed.

Lemma days_before_year_period (y : Z) :
  _days_before_year (y + 400) = _days_before_year y + _DI400Y.
Proof.
  unfold _days_before_year, _DI400Y; cbv zeta.
  Z.div_mod_to_equations; lia.
Qed.

Lemma ymd2ord_period (y m d : Z) :
  _ymd2ord (y + 400) m d = _ymd2ord y m d + _DI400Y.
Proof.
  unfold _ymd2ord, _days_before_month.
  rewrite days_before_year_period, is_leap_period. lia.
Qed.

Lemma ord2ymd_period (n : Z) :
  _ord2ymd (n + _DI400Y)
  = let '(y, m, d) := _ord2ymd n in (y + 400, m, d).
Proof.
  unfold _ord2ymd; cbv zeta.
  replace (n + _DI400Y - 1) with (n - 1 + 1 * _DI400Y) by lia.
  rewrite Z.div_add, Z.mod_add by (unfold _DI400Y; lia).
  set (r := (n - 1) mod _DI400Y).
  destruct ((r mod _DI100Y mod _DI4Y / 365 =? 4) || (r / _DI100Y =? 4));
    [f_equal; f_equal; lia |].
  match goal with
  | |- context [if ?c then _ else _] => destruct c
  end; f_equal; f_equal; lia.
Qed.

Lemma first_cycle_reads_back :
  forallb ordinal_reads_back (py_range 1 401) = true.
Proof. vm_compute. reflexivity. Qed.

Lemma ord2ymd_ymd2ord_first_cycle (y m d : Z) :
  1 <= y <= 400 -> In (m, d) target_dates ->
  _ord2ymd (_ymd2ord y m d) = (y, m, d).
Proof.
  intros Hy Hmd.
  pose proof first_cycle_reads_back as Hall.
  rewrite forallb_forall in Hall.
  assert (Hin : In y (py_range 1 401)) by (apply py_range_In; lia).
  specialize (Hall y Hin). unfold ordinal_reads_back in Hall.
  rewrite forallb_forall in Hall. specialize (Hall (m, d) Hmd).
  cbv beta iota in Hall.
  destruct (_ord2ymd (_ymd2ord y m d)) as [[y' m'] d'].
  apply andb_prop in Hall. destruct Hall as [Hall Ed].
  apply andb_prop in Hall. destruct Hall as [Ey Em].
  apply Z.eqb_eq in Ey, Em, Ed. subst. reflexivity.
Qed.

Lemma ord2ymd_ymd2ord_cycles (k : nat) :
  forall y m d : Z,
    1 <= y <= 400 * (Z.of_nat k + 1) -> In (m, d) target_dates ->
    _ord2ymd (_ymd2ord y m d) = (y, m, d).
Proof.
  induction k as [| k IH]; intros y m d Hy Hmd.
  - apply ord2ymd_ymd2ord_first_cycle; [lia | exact Hmd].
  - destruct (Z_le_gt_dec y 400) as [Hle | Hgt].
    + apply ord2ymd_ymd2ord_first_cycle; [lia | exact Hmd].
    + replace y with (y - 400 + 400) at 1 by lia.
      rewrite ymd2ord_period, ord2ymd_period.
      rewrite IH by (lia || exact Hmd).
      f_equal. f_equal. lia.
Qed.

Lemma ord2ymd_ymd2ord_target (y m d : Z) :
  1 <= y -> In (m, d) target_dates ->
  _ord2ymd (_ymd2ord y m d) = (y, m, d).
Proof.
  intros Hy Hmd.
  apply (ord2ymd_ymd2ord_cycles (Z.to_nat y)); [lia | exact Hmd].
Qed.

(** The ordinals of the target dates stay inside [1 .. _MAXORDINAL]. *)
Lemma ymd2ord_target_bounds (y m d : Z) :
  supported_year y -> In (m, d) target_dates ->
  0 < _ymd2ord y m d <= _MAXORDINAL.
Proof.
  unfold supported_year, MINYEAR, MAXYEAR, _MAXORDINAL. intros Hy Hmd.
  rewrite ymd2ord_target by exact Hmd.
  unfold _days_before_year; cbv zeta.
  assert (Hoff : 0 < index _DAYS_BEFORE_MONTH m + d <= 334 + 25).
  { unfold target_dates in Hmd.
    destruct Hmd as [E | [E | [E | [E | []]]]]; inversion E; subst;
      table_lookup; lia. }
  destruct (_is_leap y); Z.div_mod_to_equations; lia.
Qed.

Lemma utc_of_midnight (y m d : Z) :
  supported_year y -> In (m, d) target_dates ->
  utc_of_timestamp (midnight_utc y m d) = inr (y, m, d, 0, 0, 0).
Proof.
  intros Hy Hmd.
  pose proof (ymd2ord_target_bounds y m d Hy Hmd) as Hb.
  unfold utc_of_timestamp, midnight_utc.
  set (k := _ymd2ord y m d - toordinal _EPOCH).
  replace (86400 * k) with (k * 86400) by lia.
  rewrite Z.div_mul, Z.mod_mul by lia.
  replace (toordinal _EPOCH + k) with (_ymd2ord y m d) by (unfold k; lia).
  replace ((0 <? _ymd2ord y m d) && (_ymd2ord y m d <=? _MAXORDINAL))
    with true
    by (symmetry; apply andb_true_intro; split;
        [apply Z.ltb_lt | apply Z.leb_le]; lia).
  rewrite ord2ymd_ymd2ord_target
    by (exact Hmd || (unfold supported_year, MINYEAR in Hy; lia)).
  reflexivity.
Qed.

(** The float that [timestamp()] returns for a target date is a whole number
    of seconds below [2^53] in magnitude, so binary64 holds it exactly and
    [int()] loses nothing. *)
Lemma timestamp_fits_binary64 (h : Host) (y m d : Z) :
  supported_year y -> In (m, d) target_dates ->
  exists x : py_float_seconds,
    timestamp h (mk_datetime y m d 0 0 0 0 (Some timezone_utc)) = inr x
    /\ as_microseconds x = py_int x * 1000000
    /\ Z.abs (py_int x) < 2 ^ 53.
Proof.
  intros Hy Hmd.
  pose proof (ymd2ord_target_bounds y m d Hy Hmd) as Hb.
  exists (mk_seconds (midnight_utc y m d * 1000000)).
  split; [apply timestamp_midnight |].
  rewrite py_int_whole. split; [reflexivity |].
  unfold midnight_utc. rewrite epoch_ordinal.
  unfold _MAXORDINAL in Hb.
  change (2 ^ 53) with 9007199254740992.
  lia.
Qed.

(** ** Lengths *)

Lemma year_blocks_length (years : list Z) :
  List.length (flat_map year_block years) = (4 * List.length years)%nat.
Proof.
  induction years as [| y rest IH]; [reflexivity |].
  cbn [flat_map]. rewrite length_app, IH, year_block_unfold.
  cbn [List.length]. lia.
Qed.

Lemma expected_sequence_length (start_year end_year : Z) :
  start_year <= end_year ->
  Z.of_nat (List.length (expected_sequence start_year end_year))
  = 1 + 4 * (end_year - start_year).
Proof.
  intros Hle. unfold expected_sequence. cbn [List.length].
  rewrite year_blocks_length, py_range_length. lia.
Qed.

(** * The stated properties *)

(** C1. For integers [start_year <= end_year], the sequence returned by
    [generate_gmt_timestamps] has length exactly
    [1 + 4 * (end_year - start_year)]. *)
Theorem generate_length (h : Host) (start_year end_year : Z) (l : list Z) :
  start_year <= end_year ->
  generate_gmt_timestamps h start_year end_year = inr l ->
  Z.of_nat (List.length l) = 1 + 4 * (end_year - start_year).
Proof.
  intros Hle Hl.
  apply generate_inversion in Hl. destruct Hl as [_ [_ El]]. subst l.
  apply expected_sequence_length. exact Hle.
Qed.

Lemma generate_length_witness :
  2024 <= 2026
  /\ generate_gmt_timestamps utc_host 2024 2026
     = inr (expected_sequence 2024 2026)
  /\ Z.of_nat (List.length (expected_sequence 2024 2026))
     = 1 + 4 * (2026 - 2024).
Proof.
  assert (Hle : 2024 <= 2026) by lia.
  assert (Hrun : generate_gmt_timestamps utc_host 2024 2026
                 = inr (expected_sequence 2024 2026))
    by (vm_compute; reflexivity).
  split; [exact Hle | split; [exact Hrun |]].
  exact (generate_length utc_host 2024 2026 _ Hle Hrun).
Defined.

(** C2. The first element of the returned sequence is the Unix timestamp of
    December 25 of [start_year] at 00:00:00 UTC, and no element is the
    timestamp of March 25, June 24 or September 29 of [start_year]: none
    equals it and none reads back as such a date. *)
Theorem generate_seed_only (h : Host) (start_year end_year : Z) (l : list Z) :
  generate_gmt_timestamps h start_year end_year = inr l ->
  hd_error l = Some (midnight_utc start_year 12 25)
  /\ utc_of_timestamp (midnight_utc start_year 12 25)
     = inr (start_year, 12, 25, 0, 0, 0)
  /\ forall t m d,
       In t l -> In (m, d) [(3, 25); (6, 24); (9, 29)] ->
       t <> midnight_utc start_year m d
       /\ utc_of_timestamp t <> inr (start_year, m, d, 0, 0, 0).
Proof.
  intros Hl.
  apply generate_inversion in Hl. destruct Hl as [Hs [He El]]. subst l.
  split; [reflexivity |].
  split; [apply utc_of_midnight; [exact Hs | cbn; tauto] |].
  intros t m d Ht Hmd. split.
  - apply expected_sequence_lower in Ht.
    destruct (midnight_within_year start_year) as [H1 [H2 H3]].
    destruct Hmd as [E | [E | [E | []]]]; inversion E; subst; lia.
  - apply expected_sequence_In in Ht.
    destruct Ht as [Et | [y [m' [d' [Hy [Hmd' Et]]]]]]; subst t.
    + rewrite utc_of_midnight by (exact Hs || (cbn; tauto)).
      destruct Hmd as [E | [E | [E | []]]]; inversion E; subst;
        intros Eq; inversion Eq.
    + rewrite utc_of_midnight
        by (exact Hmd' || (unfold supported_year in *; lia)).
      intros Eq. inversion Eq. lia.
Qed.

Lemma generate_seed_only_witness :
  generate_gmt_timestamps utc_host 2024 2025
  = inr [1735084800; 1742860800; 1750723200; 1759104000; 1766620800]
  /\ hd_error [1735084800; 1742860800; 1750723200; 1759104000; 1766620800]
     = Some (midnight_utc 2024 12 25)
  /\ utc_of_timestamp (midnight_utc 2024 12 25) = inr (2024, 12, 25, 0, 0, 0).
Proof.
  assert (Hrun : generate_gmt_timestamps utc_host 2024 2025
                 = inr [1735084800; 1742860800; 1750723200; 1759104000;
                        1766620800])
    by (vm_compute; reflexivity).
  split; [exact Hrun |].
  destruct (generate_seed_only utc_host 2024 2025 _ Hrun) as [Hhd [Hback _]].
  split; [exact Hhd | exact Hback].
Defined.

(** C3. [generate_gmt_timestamps(2024, 2024)] returns [[1735084800]] and
    [generate_gmt_timestamps(2024, 2025)] returns the five timestamps
    [[1735084800, 1742860800, 1750723200, 1759104000, 1766620800]], in that
    order. *)
Theorem generate_2024_examples (h : Host) :
  generate_gmt_timestamps h 2024 2024 = inr [1735084800]
  /\ generate_gmt_timestamps h 2024 2025
     = inr [1735084800; 1742860800; 1750723200; 1759104000; 1766620800].
Proof. split; vm_compute; reflexivity. Qed.

(** C4. The returned sequence is strictly increasing: each element is
    strictly greater than the one before it, and no two elements are
    equal. *)
Theorem generate_strictly_increasing
  (h : Host) (start_year end_year : Z) (l : list Z) :
  generate_gmt_timestamps h start_year end_year = inr l ->
  strictly_increasing l /\ NoDup l.
Proof.
  intros Hl.
  apply generate_inversion in Hl. destruct Hl as [_ [_ El]]. subst l.
  pose proof (expected_sequence_sorted start_year end_year) as Hs.
  split; [apply Sorted_adjacent | apply Sorted_NoDup]; exact Hs.
Qed.

Lemma generate_strictly_increasing_witness :
  generate_gmt_timestamps tokyo_host 2024 2025
  = inr [1735084800; 1742860800; 1750723200; 1759104000; 1766620800]
  /\ strictly_increasing
       [1735084800; 1742860800; 1750723200; 1759104000; 1766620800]
  /\ NoDup [1735084800; 1742860800; 1750723200; 1759104000; 1766620800].
Proof.
  assert (Hrun : generate_gmt_timestamps tokyo_host 2024 2025
                 = inr [1735084800; 1742860800; 1750723200; 1759104000;
                        1766620800])
    by (vm_compute; reflexivity).
  split; [exact Hrun |].
  exact (generate_strictly_increasing tokyo_host 2024 2025 _ Hrun).
Defined.

(** C5, as the code has it. When [end_year < start_year] and [start_year]
    is a year the date constructor accepts (1 to 9999), the call raises
    nothing and returns exactly the one-element list holding the timestamp
    of December 25 of [start_year] at 00:00:00 UTC. *)
Theorem generate_empty_range (h : Host) (start_year end_year : Z) :
  supported_year start_year -> end_year < start_year ->
  generate_gmt_timestamps h start_year end_year
  = inr [midnight_utc start_year 12 25]
  /\ utc_of_timestamp (midnight_utc start_year 12 25)
     = inr (start_year, 12, 25, 0, 0, 0).
Proof.
  intros Hs Hlt. split.
  - rewrite generate_returns
      by (exact Hs || (unfold supported_year in Hs; lia)).
    unfold expected_sequence.
    rewrite py_range_empty by lia. reflexivity.
  - apply utc_of_midnight; [exact Hs | cbn; tauto].
Qed.

Lemma generate_empty_range_witness :
  generate_gmt_timestamps utc_host 2024 2020 = inr [1735084800]
  /\ utc_of_timestamp 1735084800 = inr (2024, 12, 25, 0, 0, 0).
Proof.
  apply (generate_empty_range utc_host 2024 2020);
    [unfold supported_year, MINYEAR, MAXYEAR; lia | lia].
Defined.

(** C5 as stated fails: with [start_year = 0] and [end_year = -1] the seed
    date itself is refused by the constructor and the call raises
    [ValueError] instead of returning the one-element list. *)
Lemma generate_empty_range_counterexample :
  -1 < 0
  /\ generate_gmt_timestamps utc_host 0 (-1)
     = inl (ValueError "year 0 is out of range")
  /\ forall l : list Z, generate_gmt_timestamps utc_host 0 (-1) <> inr l.
Proof.
  split; [lia |].
  assert (Hrun : generate_gmt_timestamps utc_host 0 (-1)
                 = inl (ValueError "year 0 is out of range"))
    by (vm_compute; reflexivity).
  split; [exact Hrun |].
  intros l Hl. rewrite Hrun in Hl. discriminate.
Qed.

(** C6. Every element of the returned sequence reads back, as a UTC
    calendar date and time, as 00:00:00 on a day whose (month, day) is one
    of (3,25), (6,24), (9,29), (12,25), or as December 25 of
    [start_year]. *)
Theorem generate_reads_back
  (h : Host) (start_year end_year : Z) (l : list Z) (t : Z) :
  generate_gmt_timestamps h start_year end_year = inr l ->
  In t l ->
  exists y m d,
    utc_of_timestamp t = inr (y, m, d, 0, 0, 0)
    /\ (In (m, d) [(3, 25); (6, 24); (9, 29); (12, 25)]
        \/ (y, m, d) = (start_year, 12, 25)).
Proof.
  intros Hl Ht.
  apply generate_inversion in Hl. destruct Hl as [Hs [He El]]. subst l.
  apply expected_sequence_In in Ht.
  destruct Ht as [Et | [y [m [d [Hy [Hmd Et]]]]]]; subst t.
  - exists start_year, 12, 25. split; [| right; reflexivity].
    apply utc_of_midnight; [exact Hs | cbn; tauto].
  - exists y, m, d. split; [| left; exact Hmd].
    apply utc_of_midnight; [unfold supported_year in *; lia | exact Hmd].
Qed.

Lemma generate_reads_back_witness :
  generate_gmt_timestamps utc_host 2024 2025
  = inr [1735084800; 1742860800; 1750723200; 1759104000; 1766620800]
  /\ In 1750723200
       [1735084800; 1742860800; 1750723200; 1759104000; 1766620800]
  /\ exists y m d,
       utc_of_timestamp 1750723200 = inr (y, m, d, 0, 0, 0)
       /\ (In (m, d) [(3, 25); (6, 24); (9, 29); (12, 25)]
           \/ (y, m, d) = (2024, 12, 25)).
Proof.
  assert (Hrun : generate_gmt_timestamps utc_host 2024 2025
                 = inr [1735084800; 1742860800; 1750723200; 1759104000;
                        1766620800])
    by (vm_compute; reflexivity).
  assert (Hin : In 1750723200
                  [1735084800; 1742860800; 1750723200; 1759104000;
                   1766620800])
    by (cbn; tauto).
  split; [exact Hrun | split; [exact Hin |]].
  exact (generate_reads_back utc_host 2024 2025 _ 1750723200 Hrun Hin).
Defined.

(** C7. The script takes no arguments and calls the generator with the
    defaults 2024 and 2044, so the sequence has [1 + 4 * 20 = 81] elements;
    it prints exactly two lines: the sequence as a list literal (an opening
    bracket, the 81 integers in decimal separated by a comma and a space, a
    closing bracket), then [Total timestamps generated: 81]. *)
Theorem main_prints_two_lines (h : Host) :
  default_start_year = 2024 /\ default_end_year = 2044
  /\ exists l : list Z,
       generate_gmt_timestamps h default_start_year default_end_year = inr l
       /\ Z.of_nat (List.length l) = 1 + 4 * 20
       /\ List.length l = 81%nat
       /\ uncaught (main h) = None
       /\ stdout (main h)
          = (py_str_list l ++ newline
             ++ "Total timestamps generated: 81" ++ newline)%string
       /\ lines (stdout (main h))
          = [py_str_list l; "Total timestamps generated: 81"%string]
       /\ stdout (main h)
          = ("[1735084800, "
             ++ "1742860800, 1750723200, 1759104000, 1766620800, "
             ++ "1774396800, 1782259200, 1790640000, 1798156800, "
             ++ "1805932800, 1813795200, 1822176000, 1829692800, "
             ++ "1837555200, 1845417600, 1853798400, 1861315200, "
             ++ "1869091200, 1876953600, 1885334400, 1892851200, "
             ++ "1900627200, 1908489600, 1916870400, 1924387200, "
             ++ "1932163200, 1940025600, 1948406400, 1955923200, "
             ++ "1963785600, 1971648000, 1980028800, 1987545600, "
             ++ "1995321600, 2003184000, 2011564800, 2019081600, "
             ++ "2026857600, 2034720000, 2043100800, 2050617600, "
             ++ "2058393600, 2066256000, 2074636800, 2082153600, "
             ++ "2090016000, 2097878400, 2106259200, 2113776000, "
             ++ "2121552000, 2129414400, 2137795200, 2145312000, "
             ++ "2153088000, 2160950400, 2169331200, 2176848000, "
             ++ "2184624000, 2192486400, 2200867200, 2208384000, "
             ++ "2216246400, 2224108800, 2232489600, 2240006400, "
             ++ "2247782400, 2255644800, 2264025600, 2271542400, "
             ++ "2279318400, 2287180800, 2295561600, 2303078400, "
             ++ "2310854400, 2318716800, 2327097600, 2334614400, "
             ++ "2342476800, 2350339200, 2358720000, 2366236800]"
             ++ String "010"%char
                  ("Total timestamps generated: 81"
                   ++ String "010"%char EmptyString))%string.
Proof.
  split; [reflexivity | split; [reflexivity |]].
  eexists. split; [vm_compute; reflexivity |].
  repeat split; vm_compute; reflexivity.
Qed.

(** C8. When [start_year] is a year the date constructor accepts and no
    year up to [end_year] exceeds its range, the call raises nothing; each
    of the pairs (3,25), (6,24), (9,29), (12,25) is a valid date in every
    accepted year. *)
Theorem generate_never_raises (h : Host) (start_year end_year : Z) :
  supported_year start_year -> end_year <= MAXYEAR ->
  (exists l : list Z, generate_gmt_timestamps h start_year end_year = inr l)
  /\ forall y m d,
       supported_year y -> In (m, d) [(3, 25); (6, 24); (9, 29); (12, 25)] ->
       _check_date_fields y m d = inr (y, m, d)
       /\ datetime_new y m d 0 0 0 0 (Some timezone_utc)
          = inr (mk_datetime y m d 0 0 0 0 (Some timezone_utc)).
Proof.
  intros Hs He. split.
  - exists (expected_sequence start_year end_year).
    apply generate_returns; assumption.
  - intros y m d Hy Hmd. split.
    + destruct (target_day_valid y m d Hmd) as [Hm Hd].
      unfold _check_date_fields.
      rewrite (supported_year_check y Hy), Hm, Hd. reflexivity.
    + apply datetime_new_target; assumption.
Qed.

Lemma generate_never_raises_witness :
  exists l : list Z, generate_gmt_timestamps utc_host 1 9999 = inr l.
Proof.
  apply (generate_never_raises utc_host 1 9999);
    unfold supported_year, MINYEAR, MAXYEAR; lia.
Defined.

(** C9. The result depends on nothing but the two arguments: whatever the
    host's local time zone, two calls with the same [start_year] and
    [end_year] give the same outcome, hence element-wise equal
    sequences. *)
Theorem generate_deterministic (h1 h2 : Host) (start_year end_year : Z) :
  generate_gmt_timestamps h1 start_year end_year
  = generate_gmt_timestamps h2 start_year end_year.
Proof.
  destruct (supported_year_dec start_year) as [Hs | Hs];
    [destruct (Z_le_dec end_year MAXYEAR) as [He | He] |].
  - rewrite !generate_returns by assumption. reflexivity.
  - rewrite !generate_raises by tauto. reflexivity.
  - rewrite !generate_raises by tauto. reflexivity.
Qed.

(** C10. Every element of the returned sequence is an exact multiple of
    86400, the number of seconds in a day. *)
Theorem generate_whole_days
  (h : Host) (start_year end_year : Z) (l : list Z) (t : Z) :
  generate_gmt_timestamps h start_year end_year = inr l ->
  In t l ->
  t mod 86400 = 0 /\ exists days : Z, t = days * 86400.
Proof.
  intros Hl Ht.
  apply generate_inversion in Hl. destruct Hl as [_ [_ El]]. subst l.
  assert (Hk : exists days : Z, t = days * 86400).
  { apply expected_sequence_In in Ht.
    destruct Ht as [Et | [y [m [d [_ [_ Et]]]]]]; subst t;
      unfold midnight_utc; eexists; apply Z.mul_comm. }
  split; [| exact Hk].
  destruct Hk as [days Et]. subst t. apply Z.mod_mul. lia.
Qed.

Lemma generate_whole_days_witness :
  generate_gmt_timestamps utc_host 2024 2025
  = inr [1735084800; 1742860800; 1750723200; 1759104000; 1766620800]
  /\ In 1759104000
       [1735084800; 1742860800; 1750723200; 1759104000; 1766620800]
  /\ 1759104000 mod 86400 = 0.
Proof.
  assert (Hrun : generate_gmt_timestamps utc_host 2024 2025
                 = inr [1735084800; 1742860800; 1750723200; 1759104000;
                        1766620800])
    by (vm_compute; reflexivity).
  assert (Hin : In 1759104000
                  [1735084800; 1742860800; 1750723200; 1759104000;
                   1766620800])
    by (cbn; tauto).
  split; [exact Hrun | split; [exact Hin |]].
  exact (proj1 (generate_whole_days utc_host 2024 2025 _ 1759104000 Hrun Hin)).
Defined.

(** * Further properties of [generate_gmt_timestamps] *)

(** ** Ranges and positions *)

Lemma year_block_length (y : Z) : List.length (year_block y) = 4%nat.
Proof. reflexivity. Qed.

(** Position [4 * k + j] of the concatenated year blocks is position [j]
    of the block of the [k]-th year. *)
Lemma blocks_nth_error (k : nat) :
  forall (a b : Z) (j : nat),
    a + Z.of_nat k < b -> (j < 4)%nat ->
    nth_error (flat_map year_block (py_range a b)) (4 * k + j)
    = nth_error (year_block (a + Z.of_nat k)) j.
Proof.
  induction k as [| k IH]; intros a b j Hk Hj.
  - rewrite py_range_cons by lia. cbn [flat_map].
    rewrite nth_error_app1 by (rewrite year_block_length; lia).
    replace (a + Z.of_nat 0) with a by lia.
    replace (4 * 0 + j)%nat with j by lia. reflexivity.
  - rewrite py_range_cons by lia. cbn [flat_map].
    rewrite nth_error_app2 by (rewrite year_block_length; lia).
    rewrite year_block_length.
    replace (4 * S k + j - 4)%nat with (4 * k + j)%nat by lia.
    rewrite IH by lia.
    replace (a + 1 + Z.of_nat k) with (a + Z.of_nat (S k)) by lia.
    reflexivity.
Qed.

Lemma year_block_nth_error (y : Z) (j : nat) (m d : Z) :
  nth_error target_dates j = Some (m, d) ->
  nth_error (year_block y) j = Some (midnight_utc y m d).
Proof.
  intros Hj. unfold year_block.
  rewrite nth_error_map, Hj. reflexivity.
Qed.

(** Every fourth position holds a December 25. *)
Lemma expected_sequence_dec25 (start_year end_year : Z) (k : nat) :
  Z.of_nat k <= end_year - start_year ->
  nth_error (expected_sequence start_year end_year) (4 * k)
  = Some (midnight_utc (start_year + Z.of_nat k) 12 25).
Proof.
  intros Hk. unfold expected_sequence.
  destruct k as [| k].
  - replace (start_year + Z.of_nat 0) with start_year by lia.
    reflexivity.
  - replace (4 * S k)%nat with (S (4 * k + 3)) by lia.
    cbn [nth_error].
    rewrite blocks_nth_error by lia.
    rewrite (year_block_nth_error _ 3 12 25) by reflexivity.
    replace (start_year + 1 + Z.of_nat k)
      with (start_year + Z.of_nat (S k)) by lia.
    reflexivity.
Qed.

(** ** Dates do not go back as years advance *)

Lemma days_before_year_mono (n : nat) (y : Z) :
  _days_before_year y + 365 * Z.of_nat n
  <= _days_before_year (y + Z.of_nat n).
Proof.
  induction n as [| n IH].
  - replace (y + Z.of_nat 0) with y by lia. lia.
  - replace (y + Z.of_nat (S n)) with (y + Z.of_nat n + 1) by lia.
    rewrite days_before_year_succ.
    destruct (_is_leap (y + Z.of_nat n)); lia.
Qed.

Lemma midnight_dec25_mono (y y' : Z) :
  y <= y' -> midnight_utc y 12 25 <= midnight_utc y' 12 25.
Proof.
  intros Hle.
  destruct (Z.eq_dec y y') as [-> | Hne]; [lia |].
  assert (Hlt : y + 1 <= y') by lia.
  pose proof (midnight_across_years y) as Hnext.
  pose proof (days_before_year_mono (Z.to_nat (y' - (y + 1))) (y + 1)) as Hm.
  replace (y + 1 + Z.of_nat (Z.to_nat (y' - (y + 1)))) with y' in Hm by lia.
  destruct (midnight_within_year y') as [H1 [H2 H3]].
  assert (Hmar : midnight_utc (y + 1) 3 25 <= midnight_utc y' 12 25).
  { unfold midnight_utc in *.
    rewrite !ymd2ord_target in * by (cbn; tauto).
    revert H1 H2 H3. table_lookup.
    destruct (_is_leap (y + 1)), (_is_leap y'); lia. }
  lia.
Qed.

Lemma midnight_target_le_dec25 (y m d : Z) :
  In (m, d) target_dates -> midnight_utc y m d <= midnight_utc y 12 25.
Proof.
  intros Hmd. destruct (midnight_within_year y) as [H1 [H2 H3]].
  destruct Hmd as [E | [E | [E | [E | []]]]]; inversion E; subst; lia.
Qed.

Lemma midnight_gaps (y : Z) :
  midnight_utc y 6 24 - midnight_utc y 3 25 = 86400 * 91
  /\ midnight_utc y 9 29 - midnight_utc y 6 24 = 86400 * 97
  /\ midnight_utc y 12 25 - midnight_utc y 9 29 = 86400 * 87
  /\ midnight_utc (y + 1) 3 25 - midnight_utc y 12 25
     = 86400 * (if _is_leap (y + 1) then 91 else 90).
Proof.
  unfold midnight_utc.
  rewrite !ymd2ord_target by (cbn; tauto).
  rewrite days_before_year_succ.
  table_lookup. destruct (_is_leap y), (_is_leap (y + 1)); lia.
Qed.

(** ** Chains of neighbours *)

Section Chain.

(** A relation that holds between each target date and the next one. *)
Variable R : Z -> Z -> Prop.
Hypothesis R_spring : forall y, R (midnight_utc y 3 25) (midnight_utc y 6 24).
Hypothesis R_summer : forall y, R (midnight_utc y 6 24) (midnight_utc y 9 29).
Hypothesis R_autumn : forall y, R (midnight_utc y 9 29) (midnight_utc y 12 25).
Hypothesis R_winter :
  forall y, R (midnight_utc y 12 25) (midnight_utc (y + 1) 3 25).

Lemma blocks_chain (n : nat) :
  forall a b : Z, Z.to_nat (b - a) = n ->
  Sorted R (flat_map year_block (py_range a b))
  /\ HdRel R (midnight_utc (a - 1) 12 25)
       (flat_map year_block (py_range a b)).
Proof.
  induction n as [| n IH]; intros a b Hn.
  - rewrite py_range_empty by lia. split; constructor.
  - rewrite py_range_cons by lia. cbn [flat_map].
    rewrite year_block_unfold. cbn [app].
    destruct (IH (a + 1) b ltac:(lia)) as [Hsorted Hhead].
    replace (a + 1 - 1) with a in Hhead by lia.
    split.
    + constructor; [| constructor; apply R_spring].
      constructor; [| constructor; apply R_summer].
      constructor; [| constructor; apply R_autumn].
      constructor; [exact Hsorted | exact Hhead].
    + constructor.
      replace a with (a - 1 + 1) at 2 by lia. apply R_winter.
Qed.

Lemma expected_sequence_chain (start_year end_year : Z) :
  Sorted R (expected_sequence start_year end_year).
Proof.
  unfold expected_sequence.
  destruct (blocks_chain _ (start_year + 1) (end_year + 1) eq_refl)
    as [Hsorted Hhead].
  replace (start_year + 1 - 1) with start_year in Hhead by lia.
  constructor; assumption.
Qed.

Lemma Sorted_neighbours (l : list Z) :
  Sorted R l ->
  forall i : nat, (S i < List.length l)%nat -> R (nth i l 0) (nth (S i) l 0).
Proof.
  induction 1 as [| a l Hs IH Hhd]; intros i Hi; cbn in Hi; [lia |].
  destruct i as [| i].
  - destruct Hhd as [| b l' Hab]; cbn in Hi |- *; [lia | exact Hab].
  - cbn [nth]. apply IH. lia.
Qed.

End Chain.

(** ** Failure, length and content *)

Lemma expected_sequence_length_any (start_year end_year : Z) :
  Z.of_nat (List.length (expected_sequence start_year end_year))
  = 1 + 4 * Z.max 0 (end_year - start_year).
Proof.
  unfold expected_sequence. cbn [List.length].
  rewrite year_blocks_length, py_range_length. lia.
Qed.

(** Closes the four parts of [generate_returns_iff] once the outcome of
    the call is known. *)
Ltac settle_outcome :=
  repeat split; intros;
  repeat match goal with
         | H : exists _, _ |- _ => destruct H
         end;
  try discriminate; try lia; try tauto; try (eexists; reflexivity).

(** X1. The call returns a list exactly when [start_year] is in 1..9999 and
    [end_year] is at most 9999. It raises [OverflowError] exactly when
    [start_year] does not fit a C [int], and [ValueError] in every other
    case where it does not return; it raises nothing else. *)
Theorem generate_returns_iff (h : Host) (start_year end_year : Z) :
  ((exists l : list Z,
       generate_gmt_timestamps h start_year end_year = inr l)
   <-> 1 <= start_year <= 9999 /\ end_year <= 9999)
  /\ ((exists msg : string,
         generate_gmt_timestamps h start_year end_year
         = inl (OverflowError msg))
      <-> start_year < - 2 ^ 31 \/ 2 ^ 31 - 1 < start_year)
  /\ ((exists msg : string,
         generate_gmt_timestamps h start_year end_year
         = inl (ValueError msg))
      <-> - 2 ^ 31 <= start_year <= 2 ^ 31 - 1
          /\ ~ (1 <= start_year <= 9999 /\ end_year <= 9999))
  /\ forall msg : string,
       generate_gmt_timestamps h start_year end_year
       <> inl (TypeError msg).
Proof.
  change (1 <= start_year <= 9999) with (supported_year start_year).
  change 9999 with MAXYEAR.
  change (- 2 ^ 31) with INT_MIN. change (2 ^ 31 - 1) with INT_MAX.
  destruct (supported_year_dec start_year) as [Hs | Hs];
    [destruct (Z_le_dec end_year MAXYEAR) as [He | He] |].
  - rewrite generate_returns by assumption.
    unfold supported_year, MINYEAR, MAXYEAR, INT_MIN, INT_MAX in *.
    settle_outcome.
  - rewrite generate_raises by tauto.
    unfold raised_for. rewrite (supported_year_check start_year Hs).
    change (year_failure (MAXYEAR + 1))
      with (ValueError "year 10000 is out of range").
    unfold supported_year, MINYEAR, MAXYEAR, INT_MIN, INT_MAX in *.
    settle_outcome.
  - rewrite generate_raises by tauto.
    unfold raised_for. rewrite (unsupported_year_check start_year Hs).
    destruct (year_failure_kind start_year) as [Hin Hout].
    destruct (Z_le_dec INT_MIN start_year) as [Hlo | Hlo];
      [destruct (Z_le_dec start_year INT_MAX) as [Hhi | Hhi] |].
    + rewrite (Hin ltac:(lia)).
      unfold INT_MIN, INT_MAX in *.
      settle_outcome.
    + destruct (Hout ltac:(lia)) as [msg E]. rewrite E.
      unfold INT_MIN, INT_MAX in *.
      settle_outcome.
    + destruct (Hout ltac:(lia)) as [msg E]. rewrite E.
      unfold INT_MIN, INT_MAX in *.
      settle_outcome.
Qed.

(** X2. Whatever the order of the two years, a returned list has
    [1 + 4 * max(0, end_year - start_year)] elements; in particular it is
    never empty. *)
Theorem generate_length_any (h : Host) (start_year end_year : Z) (l : list Z) :
  generate_gmt_timestamps h start_year end_year = inr l ->
  Z.of_nat (List.length l) = 1 + 4 * Z.max 0 (end_year - start_year)
  /\ l <> [].
Proof.
  intros Hl.
  apply generate_inversion in Hl. destruct Hl as [_ [_ El]]. subst l.
  split; [apply expected_sequence_length_any | discriminate].
Qed.

Lemma generate_length_any_witness :
  generate_gmt_timestamps utc_host 2030 2027 = inr [1924387200]
  /\ Z.of_nat (List.length [1924387200]) = 1 + 4 * Z.max 0 (2027 - 2030)
  /\ [1924387200] <> [].
Proof.
  assert (Hrun : generate_gmt_timestamps utc_host 2030 2027
                 = inr [1924387200])
    by (vm_compute; reflexivity).
  split; [exact Hrun |].
  exact (generate_length_any utc_host 2030 2027 _ Hrun).
Defined.

(** X3. Layout of a returned list: for the [k]-th year after [start_year]
    (counting from 0) and the [j]-th target date [(m, d)], position
    [1 + 4 * k + j] holds the timestamp that reads back as 00:00:00 on
    [(start_year + 1 + k, m, d)]. *)
Theorem generate_position
  (h : Host) (start_year end_year : Z) (l : list Z)
  (k j : nat) (m d : Z) :
  generate_gmt_timestamps h start_year end_year = inr l ->
  Z.of_nat k < end_year - start_year ->
  nth_error [(3, 25); (6, 24); (9, 29); (12, 25)] j = Some (m, d) ->
  exists t : Z,
    nth_error l (1 + 4 * k + j) = Some t
    /\ t = midnight_utc (start_year + 1 + Z.of_nat k) m d
    /\ utc_of_timestamp t
       = inr (start_year + 1 + Z.of_nat k, m, d, 0, 0, 0).
Proof.
  intros Hl Hk Hj.
  apply generate_inversion in Hl. destruct Hl as [Hs [He El]]. subst l.
  assert (Hj4 : (j < 4)%nat)
    by (apply (proj1 (nth_error_Some target_dates j));
        unfold target_dates; rewrite Hj; discriminate).
  exists (midnight_utc (start_year + 1 + Z.of_nat k) m d).
  split; [| split; [reflexivity |]].
  - unfold expected_sequence. cbn [Nat.add nth_error].
    rewrite blocks_nth_error by lia.
    apply year_block_nth_error. exact Hj.
  - apply utc_of_midnight.
    + unfold supported_year in *. lia.
    + apply nth_error_In with (n := j). exact Hj.
Qed.

Lemma generate_position_witness :
  generate_gmt_timestamps utc_host 2024 2026
  = inr (expected_sequence 2024 2026)
  /\ exists t : Z,
       nth_error (expected_sequence 2024 2026) (1 + 4 * 1 + 2) = Some t
       /\ t = midnight_utc (2024 + 1 + Z.of_nat 1) 9 29
       /\ utc_of_timestamp t = inr (2024 + 1 + Z.of_nat 1, 9, 29, 0, 0, 0).
Proof.
  assert (Hrun : generate_gmt_timestamps utc_host 2024 2026
                 = inr (expected_sequence 2024 2026))
    by (vm_compute; reflexivity).
  split; [exact Hrun |].
  apply (generate_position utc_host 2024 2026 _ 1 2 9 29 Hrun);
    [cbn; lia | reflexivity].
Defined.

(** X4. A returned list holds exactly the timestamp of December 25 of
    [start_year] and, for every year after [start_year] up to [end_year],
    the timestamps of all four target dates: nothing else, and none of
    them missing. *)
Theorem generate_members
  (h : Host) (start_year end_year : Z) (l : list Z) (t : Z) :
  generate_gmt_timestamps h start_year end_year = inr l ->
  (In t l <->
   exists y m d,
     t = midnight_utc y m d
     /\ utc_of_timestamp t = inr (y, m, d, 0, 0, 0)
     /\ ((y, m, d) = (start_year, 12, 25)
         \/ (start_year < y <= end_year
             /\ In (m, d) [(3, 25); (6, 24); (9, 29); (12, 25)]))).
Proof.
  intros Hl.
  apply generate_inversion in Hl. destruct Hl as [Hs [He El]]. subst l.
  rewrite expected_sequence_In. split.
  - intros [Et | [y [m [d [Hy [Hmd Et]]]]]]; subst t.
    + exists start_year, 12, 25.
      split; [reflexivity | split; [| left; reflexivity]].
      apply utc_of_midnight; [exact Hs | cbn; tauto].
    + exists y, m, d.
      split; [reflexivity | split; [| right; split; assumption]].
      apply utc_of_midnight; [unfold supported_year in *; lia | exact Hmd].
  - intros [y [m [d [Et [_ [E | [Hy Hmd]]]]]]].
    + inversion E; subst. left; reflexivity.
    + right. exists y, m, d. auto.
Qed.

Lemma generate_members_witness :
  generate_gmt_timestamps utc_host 2024 2025
  = inr [1735084800; 1742860800; 1750723200; 1759104000; 1766620800]
  /\ In (midnight_utc 2025 6 24)
       [1735084800; 1742860800; 1750723200; 1759104000; 1766620800].
Proof.
  assert (Hrun : generate_gmt_timestamps utc_host 2024 2025
                 = inr [1735084800; 1742860800; 1750723200; 1759104000;
                        1766620800])
    by (vm_compute; reflexivity).
  split; [exact Hrun |].
  apply (generate_members utc_host 2024 2025 _ (midnight_utc 2025 6 24) Hrun).
  exists 2025, 6, 24.
  split; [reflexivity | split; [vm_compute; reflexivity |]].
  right. split; [lia | cbn; tauto].
Defined.

(** ** Growing and shifting the range *)

(** X5. Raising [end_year] by one leaves the list as it was and appends the
    four timestamps of the new year, in the order March 25, June 24,
    September 29, December 25. *)
Theorem generate_extend (h : Host) (start_year end_year : Z) (l : list Z) :
  generate_gmt_timestamps h start_year end_year = inr l ->
  start_year <= end_year -> end_year + 1 <= 9999 ->
  generate_gmt_timestamps h start_year (end_year + 1)
  = inr (l ++ [midnight_utc (end_year + 1) 3 25;
               midnight_utc (end_year + 1) 6 24;
               midnight_utc (end_year + 1) 9 29;
               midnight_utc (end_year + 1) 12 25]).
Proof.
  intros Hl Hle Hmax.
  apply generate_inversion in Hl. destruct Hl as [Hs [He El]]. subst l.
  rewrite generate_returns by (exact Hs || (unfold MAXYEAR; lia)).
  unfold expected_sequence.
  rewrite (py_range_last (start_year + 1) (end_year + 1)) by lia.
  rewrite flat_map_app. cbn [flat_map]. rewrite app_nil_r.
  rewrite year_block_unfold. reflexivity.
Qed.

Lemma generate_extend_witness :
  generate_gmt_timestamps utc_host 2024 2024 = inr [1735084800]
  /\ generate_gmt_timestamps utc_host 2024 (2024 + 1)
     = inr ([1735084800]
            ++ [midnight_utc (2024 + 1) 3 25; midnight_utc (2024 + 1) 6 24;
                midnight_utc (2024 + 1) 9 29; midnight_utc (2024 + 1) 12 25]).
Proof.
  assert (Hrun : generate_gmt_timestamps utc_host 2024 2024
                 = inr [1735084800])
    by (vm_compute; reflexivity).
  split; [exact Hrun |].
  apply (generate_extend utc_host 2024 2024 _ Hrun); lia.
Defined.

(** X6. The list for a range is a prefix of the list for any longer range
    with the same [start_year]: what was generated does not depend on how
    far [end_year] lies ahead. *)
Theorem generate_prefix
  (h : Host) (start_year end_year end_year' : Z) (l : list Z) :
  generate_gmt_timestamps h start_year end_year = inr l ->
  end_year <= end_year' -> end_year' <= 9999 ->
  exists rest : list Z,
    generate_gmt_timestamps h start_year end_year' = inr (l ++ rest)
    /\ Z.of_nat (List.length rest)
       = 4 * (Z.max 0 (end_year' - start_year)
              - Z.max 0 (end_year - start_year)).
Proof.
  intros Hl Hle Hmax.
  apply generate_inversion in Hl. destruct Hl as [Hs [He El]]. subst l.
  rewrite generate_returns by (exact Hs || (unfold MAXYEAR; lia)).
  unfold expected_sequence.
  destruct (Z_le_gt_dec (start_year + 1) (end_year + 1)) as [Hin | Hout].
  - exists (flat_map year_block (py_range (end_year + 1) (end_year' + 1))).
    rewrite (py_range_app (start_year + 1) (end_year + 1) (end_year' + 1))
      by lia.
    rewrite flat_map_app. split; [reflexivity |].
    rewrite year_blocks_length, py_range_length. lia.
  - exists (flat_map year_block (py_range (start_year + 1) (end_year' + 1))).
    rewrite (py_range_empty (start_year + 1) (end_year + 1)) by lia.
    split; [reflexivity |].
    rewrite year_blocks_length, py_range_length. lia.
Qed.

Lemma generate_prefix_witness :
  generate_gmt_timestamps utc_host 2024 2024 = inr [1735084800]
  /\ exists rest : list Z,
       generate_gmt_timestamps utc_host 2024 2030
       = inr ([1735084800] ++ rest)
       /\ Z.of_nat (List.length rest)
          = 4 * (Z.max 0 (2030 - 2024) - Z.max 0 (2024 - 2024)).
Proof.
  assert (Hrun : generate_gmt_timestamps utc_host 2024 2024
                 = inr [1735084800])
    by (vm_compute; reflexivity).
  split; [exact Hrun |].
  apply (generate_prefix utc_host 2024 2024 2030 _ Hrun); lia.
Defined.

(** X7. Starting one year later drops exactly the first four elements:
    when [start_year < end_year], the call for [start_year + 1] returns the
    list for [start_year] without its first four entries. *)
Theorem generate_shift (h : Host) (start_year end_year : Z) (l : list Z) :
  generate_gmt_timestamps h start_year end_year = inr l ->
  start_year < end_year ->
  generate_gmt_timestamps h (start_year + 1) end_year = inr (skipn 4 l).
Proof.
  intros Hl Hlt.
  apply generate_inversion in Hl. destruct Hl as [Hs [He El]]. subst l.
  rewrite generate_returns
    by (exact He || (unfold supported_year, MINYEAR, MAXYEAR in *; lia)).
  unfold expected_sequence.
  rewrite (py_range_cons (start_year + 1) (end_year + 1)) by lia.
  cbn [flat_map]. rewrite year_block_unfold. reflexivity.
Qed.

Lemma generate_shift_witness :
  generate_gmt_timestamps utc_host 2024 2025
  = inr [1735084800; 1742860800; 1750723200; 1759104000; 1766620800]
  /\ generate_gmt_timestamps utc_host (2024 + 1) 2025
     = inr (skipn 4 [1735084800; 1742860800; 1750723200; 1759104000;
                     1766620800]).
Proof.
  assert (Hrun : generate_gmt_timestamps utc_host 2024 2025
                 = inr [1735084800; 1742860800; 1750723200; 1759104000;
                        1766620800])
    by (vm_compute; reflexivity).
  split; [exact Hrun |].
  apply (generate_shift utc_host 2024 2025 _ Hrun). lia.
Defined.

(** ** Values *)

Lemma expected_sequence_upper (start_year end_year t : Z) :
  In t (expected_sequence start_year end_year) ->
  t <= midnight_utc (Z.max start_year end_year) 12 25.
Proof.
  intros Ht. apply expected_sequence_In in Ht.
  destruct Ht as [Et | [y [m [d [Hy [Hmd Et]]]]]]; subst t.
  - apply midnight_dec25_mono. lia.
  - pose proof (midnight_target_le_dec25 y m d Hmd) as H1.
    pose proof (midnight_dec25_mono y (Z.max start_year end_year)
                  ltac:(lia)) as H2.
    lia.
Qed.

(** X8. The first element is the smallest and the last is the largest:
    every element lies between the timestamp of December 25 of
    [start_year] and that of December 25 of the later of the two years,
    and the last position holds that December 25. *)
Theorem generate_bounds
  (h : Host) (start_year end_year : Z) (l : list Z) :
  generate_gmt_timestamps h start_year end_year = inr l ->
  nth_error l (List.length l - 1)
  = Some (midnight_utc (Z.max start_year end_year) 12 25)
  /\ utc_of_timestamp (midnight_utc (Z.max start_year end_year) 12 25)
     = inr (Z.max start_year end_year, 12, 25, 0, 0, 0)
  /\ forall t : Z,
       In t l ->
       midnight_utc start_year 12 25 <= t
       <= midnight_utc (Z.max start_year end_year) 12 25.
Proof.
  intros Hl.
  apply generate_inversion in Hl. destruct Hl as [Hs [He El]]. subst l.
  pose proof (expected_sequence_length_any start_year end_year) as Hlen.
  split; [| split].
  - replace (List.length (expected_sequence start_year end_year) - 1)%nat
      with (4 * Z.to_nat (Z.max 0 (end_year - start_year)))%nat by lia.
    destruct (Z_le_gt_dec start_year end_year) as [Hle | Hgt].
    + rewrite expected_sequence_dec25 by lia.
      replace (start_year
               + Z.of_nat (Z.to_nat (Z.max 0 (end_year - start_year))))
        with (Z.max start_year end_year) by lia.
      reflexivity.
    + replace (Z.max 0 (end_year - start_year)) with 0 by lia.
      replace (Z.max start_year end_year) with start_year by lia.
      reflexivity.
  - apply utc_of_midnight; [| cbn; tauto].
    unfold supported_year, MINYEAR, MAXYEAR in *. lia.
  - intros t Ht. split.
    + apply (expected_sequence_lower start_year end_year). exact Ht.
    + apply expected_sequence_upper. exact Ht.
Qed.

Lemma generate_bounds_witness :
  generate_gmt_timestamps utc_host 2024 2025
  = inr [1735084800; 1742860800; 1750723200; 1759104000; 1766620800]
  /\ nth_error [1735084800; 1742860800; 1750723200; 1759104000; 1766620800]
       (List.length [1735084800; 1742860800; 1750723200; 1759104000;
                     1766620800] - 1)
     = Some (midnight_utc (Z.max 2024 2025) 12 25).
Proof.
  assert (Hrun : generate_gmt_timestamps utc_host 2024 2025
                 = inr [1735084800; 1742860800; 1750723200; 1759104000;
                        1766620800])
    by (vm_compute; reflexivity).
  split; [exact Hrun |].
  exact (proj1 (generate_bounds utc_host 2024 2025 _ Hrun)).
Defined.

(** X9. The timestamps are all positive exactly when [start_year] is 1970
    or later; for an earlier [start_year] the first element is negative. *)
Theorem generate_sign (h : Host) (start_year end_year : Z) (l : list Z) :
  generate_gmt_timestamps h start_year end_year = inr l ->
  ((forall t : Z, In t l -> 0 < t) <-> 1970 <= start_year)
  /\ (start_year < 1970 -> exists t rest, l = t :: rest /\ t < 0).
Proof.
  intros Hl.
  apply generate_inversion in Hl. destruct Hl as [Hs [He El]]. subst l.
  assert (H1970 : 0 < midnight_utc 1970 12 25) by (vm_compute; reflexivity).
  assert (H1969 : midnight_utc 1969 12 25 < 0) by (vm_compute; reflexivity).
  assert (Hneg : start_year < 1970 -> midnight_utc start_year 12 25 < 0).
  { intros Hlt.
    pose proof (midnight_dec25_mono start_year 1969 ltac:(lia)). lia. }
  split; [split |].
  - intros Hpos.
    destruct (Z_lt_ge_dec start_year 1970) as [Hlt | Hge]; [| lia].
    specialize (Hpos (midnight_utc start_year 12 25)
                  ltac:(unfold expected_sequence; left; reflexivity)).
    specialize (Hneg Hlt). lia.
  - intros Hge t Ht.
    apply expected_sequence_lower in Ht.
    pose proof (midnight_dec25_mono 1970 start_year Hge). lia.
  - intros Hlt. unfold expected_sequence.
    eexists; eexists; split; [reflexivity | apply Hneg; exact Hlt].
Qed.

Lemma generate_sign_witness :
  generate_gmt_timestamps utc_host 1969 1970
  = inr (expected_sequence 1969 1970)
  /\ exists t rest, expected_sequence 1969 1970 = t :: rest /\ t < 0.
Proof.
  assert (Hrun : generate_gmt_timestamps utc_host 1969 1970
                 = inr (expected_sequence 1969 1970))
    by (vm_compute; reflexivity).
  split; [exact Hrun |].
  apply (generate_sign utc_host 1969 1970 _ Hrun). lia.
Defined.



(** ** Distances between neighbours *)

(** X11. Around the [k]-th year after [start_year], the five elements from
    position [4 * k] on are 90 days apart (91 when the later year is a leap
    year), then 91, 97 and 87 days apart. *)
Theorem generate_gaps
  (h : Host) (start_year end_year : Z) (l : list Z) (k : nat) :
  generate_gmt_timestamps h start_year end_year = inr l ->
  Z.of_nat k < end_year - start_year ->
  exists t0 t1 t2 t3 t4 : Z,
    nth_error l (4 * k) = Some t0
    /\ nth_error l (4 * k + 1) = Some t1
    /\ nth_error l (4 * k + 2) = Some t2
    /\ nth_error l (4 * k + 3) = Some t3
    /\ nth_error l (4 * k + 4) = Some t4
    /\ t1 - t0
       = 86400 * (if _is_leap (start_year + Z.of_nat k + 1) then 91 else 90)
    /\ t2 - t1 = 86400 * 91
    /\ t3 - t2 = 86400 * 97
    /\ t4 - t3 = 86400 * 87.
Proof.
  intros Hl Hk.
  apply generate_inversion in Hl. destruct Hl as [Hs [He El]]. subst l.
  set (y := start_year + Z.of_nat k).
  exists (midnight_utc y 12 25), (midnight_utc (y + 1) 3 25),
    (midnight_utc (y + 1) 6 24), (midnight_utc (y + 1) 9 29),
    (midnight_utc (y + 1) 12 25).
  assert (Hblock : forall (j : nat) (m d : Z),
             nth_error target_dates j = Some (m, d) ->
             nth_error (expected_sequence start_year end_year)
               (S (4 * k + j))
             = Some (midnight_utc (y + 1) m d)).
  { intros j m d Hj.
    assert (Hj4 : (j < 4)%nat)
      by (apply (proj1 (nth_error_Some target_dates j));
          rewrite Hj; discriminate).
    unfold expected_sequence. cbn [nth_error].
    rewrite blocks_nth_error by lia.
    replace (start_year + 1 + Z.of_nat k) with (y + 1) by (unfold y; lia).
    apply year_block_nth_error. exact Hj. }
  destruct (midnight_gaps (y + 1)) as [G1 [G2 [G3 _]]].
  destruct (midnight_gaps y) as [_ [_ [_ G4]]].
  split; [apply expected_sequence_dec25; lia |].
  split; [replace (4 * k + 1)%nat with (S (4 * k + 0)) by lia;
          apply Hblock; reflexivity |].
  split; [replace (4 * k + 2)%nat with (S (4 * k + 1)) by lia;
          apply Hblock; reflexivity |].
  split; [replace (4 * k + 3)%nat with (S (4 * k + 2)) by lia;
          apply Hblock; reflexivity |].
  split; [replace (4 * k + 4)%nat with (S (4 * k + 3)) by lia;
          apply Hblock; reflexivity |].
  repeat split; assumption.
Qed.

Lemma generate_gaps_witness :
  generate_gmt_timestamps utc_host 2027 2028
  = inr [1829692800; 1837555200; 1845417600; 1853798400; 1861315200]
  /\ 1837555200 - 1829692800 = 86400 * 91.
Proof.
  assert (Hrun : generate_gmt_timestamps utc_host 2027 2028
                 = inr [1829692800; 1837555200; 1845417600; 1853798400;
                        1861315200])
    by (vm_compute; reflexivity).
  split; [exact Hrun |].
  destruct (generate_gaps utc_host 2027 2028 _ 0 Hrun ltac:(cbn; lia))
    as [t0 [t1 [t2 [t3 [t4 [E0 [E1 [_ [_ [_ [G _]]]]]]]]]]].
  cbn in E0, E1. inversion E0. inversion E1. subst t0 t1.
  exact G.
Defined.

(** X12. Two neighbouring elements of a returned list are never less than
    87 days and never more than 97 days apart. *)
Theorem generate_gap_bounds
  (h : Host) (start_year end_year : Z) (l : list Z) (i : nat) :
  generate_gmt_timestamps h start_year end_year = inr l ->
  (S i < List.length l)%nat ->
  86400 * 87 <= nth (S i) l 0 - nth i l 0 <= 86400 * 97.
Proof.
  intros Hl Hi.
  apply generate_inversion in Hl. destruct Hl as [_ [_ El]]. subst l.
  apply (Sorted_neighbours
           (fun x y => 86400 * 87 <= y - x <= 86400 * 97)); [| exact Hi].
  apply expected_sequence_chain; intros y;
    destruct (midnight_gaps y) as [G1 [G2 [G3 G4]]]; try lia.
  destruct (_is_leap (y + 1)); lia.
Qed.

Lemma generate_gap_bounds_witness :
  generate_gmt_timestamps utc_host 2024 2025
  = inr [1735084800; 1742860800; 1750723200; 1759104000; 1766620800]
  /\ 86400 * 87 <= 1766620800 - 1759104000 <= 86400 * 97.
Proof.
  assert (Hrun : generate_gmt_timestamps utc_host 2024 2025
                 = inr [1735084800; 1742860800; 1750723200; 1759104000;
                        1766620800])
    by (vm_compute; reflexivity).
  split; [exact Hrun |].
  apply (generate_gap_bounds utc_host 2024 2025 _ 3 Hrun). cbn. lia.
Defined.
